(** * MyGeoLocation: the [App] component of [src/App.tsx]

    A shallow embedding of the state logic of the single React Native
    screen: the seven [useState] cells, the map reference, the two
    asynchronous collaborators (expo-location and the map surface) and the
    handlers wired to the buttons.

    JavaScript numbers are IEEE 754 binary64 values; they are embedded as
    Rocq's primitive [float], so that [+], [-], [>] and truthiness behave
    as they do in the running program. *)

From Stdlib Require Import Floats ZArith List String Ascii Bool Lia.
Import ListNotations.

Set Warnings "-inexact-float".
Local Open Scope string_scope.

(** ** JavaScript values used by the component *)

Module JS.

Definition number := float.

(** [ToBoolean] on a number: [NaN], [+0] and [-0] are falsy. *)
Definition truthy (x : number) : bool := negb (is_nan x || is_zero x).

(** Truthiness of [number | null] and of [number | undefined]. *)
Definition truthy_opt (x : option number) : bool :=
  match x with
  | Some v => truthy v
  | None => false
  end.

(** [x || d] for [x : number | undefined]. *)
Definition or_else (x : option number) (d : number) : number :=
  match x with
  | Some v => if truthy v then v else d
  | None => d
  end.

(** [x > y]; false as soon as one side is [NaN]. *)
Definition gt (x y : number) : bool := (y <? x)%float.

(** [s || d] for strings: the empty string is falsy. *)
Definition str_or_else (s : option string) (d : string) : string :=
  match s with
  | Some EmptyString => d
  | Some v => v
  | None => d
  end.

(** The line feed of a template literal. *)
Definition nl : string := String (ascii_of_nat 10) EmptyString.

(** A promise once settled. *)
Inductive Settled (A E : Type) : Type :=
| Fulfilled (a : A)
| Rejected (e : E).
Arguments Fulfilled {A E} a.
Arguments Rejected {A E} e.

End JS.

Bind Scope float_scope with JS.number.

(** The value thrown by a collaborator; only ever passed to
    [console.error]. *)
Definition Error := string.

(** ** Data of react-native-maps and expo-location *)

Record LatLng := {
  ll_latitude : JS.number;
  ll_longitude : JS.number
}.

Record Region := {
  latitude : JS.number;
  longitude : JS.number;
  latitudeDelta : JS.number;
  longitudeDelta : JS.number
}.

(** [zoom] is set on Google Maps and [altitude] on Apple Maps; the other
    one is [undefined]. *)
Record Camera := {
  center : LatLng;
  heading : JS.number;
  pitch : JS.number;
  zoom : option JS.number;
  altitude : option JS.number
}.

Record LocationObjectCoords := {
  coords_latitude : JS.number;
  coords_longitude : JS.number;
  coords_altitude : option JS.number;
  coords_accuracy : option JS.number;
  coords_altitudeAccuracy : option JS.number;
  coords_heading : option JS.number;
  coords_speed : option JS.number
}.

Record LocationObject := {
  coords : LocationObjectCoords;
  timestamp : JS.number
}.

Inductive PermissionStatus := granted | denied | undetermined.

Inductive Accuracy :=
  Lowest | Low | Balanced | High | Highest | BestForNavigation.

Inductive MapType := standard | satellite.

(** ** Module constants *)

Definition CONSTANTA_COORDINATES : LatLng :=
  {| ll_latitude := 44.159801; ll_longitude := 28.634800 |}.

Definition CONSTANTA_REGION : Region :=
  {| latitude := ll_latitude CONSTANTA_COORDINATES;
     longitude := ll_longitude CONSTANTA_COORDINATES;
     latitudeDelta := 0.0922;
     longitudeDelta := 0.0421 |}.

(** ** Effects on the outside world *)

(** What a button of an [Alert] does when pressed. *)
Inductive AlertAction := RequestPermissionsAgain.

Record AlertButton := {
  text : string;
  style : option string;
  onPress : option AlertAction
}.

Inductive Effect :=
| AlertAlert (title message : string) (buttons : list AlertButton)
| RequestForegroundPermissionsAsync
| GetCurrentPositionAsync (accuracy : Accuracy)
| GetCamera
| AnimateToRegion (r : Region) (duration : JS.number)
| AnimateCamera (c : Camera) (duration : JS.number)
| ConsoleError (label : string) (error : Error).

(** ** The component state *)

(** The seven [useState] cells of [App]. *)
Record AppState := {
  location : option LocationObject;
  region : Region;
  loading : bool;
  errorMsg : option string;
  permissionGranted : bool;
  mapType : MapType;
  showDetails : bool
}.

Definition setLocation (v : option LocationObject) (s : AppState) : AppState :=
  {| location := v; region := region s; loading := loading s;
     errorMsg := errorMsg s; permissionGranted := permissionGranted s;
     mapType := mapType s; showDetails := showDetails s |}.

Definition setRegion (v : Region) (s : AppState) : AppState :=
  {| location := location s; region := v; loading := loading s;
     errorMsg := errorMsg s; permissionGranted := permissionGranted s;
     mapType := mapType s; showDetails := showDetails s |}.

Definition setLoading (v : bool) (s : AppState) : AppState :=
  {| location := location s; region := region s; loading := v;
     errorMsg := errorMsg s; permissionGranted := permissionGranted s;
     mapType := mapType s; showDetails := showDetails s |}.

Definition setErrorMsg (v : option string) (s : AppState) : AppState :=
  {| location := location s; region := region s; loading := loading s;
     errorMsg := v; permissionGranted := permissionGranted s;
     mapType := mapType s; showDetails := showDetails s |}.

Definition setPermissionGranted (v : bool) (s : AppState) : AppState :=
  {| location := location s; region := region s; loading := loading s;
     errorMsg := errorMsg s; permissionGranted := v;
     mapType := mapType s; showDetails := showDetails s |}.

(** [setMapType] is only called with an updater function. *)
Definition setMapType (f : MapType -> MapType) (s : AppState) : AppState :=
  {| location := location s; region := region s; loading := loading s;
     errorMsg := errorMsg s; permissionGranted := permissionGranted s;
     mapType := f (mapType s); showDetails := showDetails s |}.

Definition setShowDetails (v : bool) (s : AppState) : AppState :=
  {| location := location s; region := region s; loading := loading s;
     errorMsg := errorMsg s; permissionGranted := permissionGranted s;
     mapType := mapType s; showDetails := v |}.

(** The value of [useState]'s initial arguments. *)
Definition useState_initial : AppState :=
  {| location := None; region := CONSTANTA_REGION; loading := false;
     errorMsg := None; permissionGranted := false;
     mapType := standard; showDetails := false |}.

(** The native map behind [mapRef.current]: what [getCamera()] settles to
    and the region last requested through [animateToRegion].  How the
    native side turns a region into a camera is not part of the program;
    the camera is only ever changed here by [animateCamera] and by the
    map's own gestures. *)
Record MapView := {
  getCamera : JS.Settled Camera Error;
  targetRegion : Region
}.

(** The whole running screen: the React state, the ref, the awaited
    promises that have been issued and not yet settled, and the trace of
    calls made to the collaborators (oldest first).  [permissionPending]
    counts the request the mount effect awaits and [positionPending] the
    requests [getCurrentPosition] awaits.  The request fired by the
    alert's Settings button is awaited by nothing: it appears in the
    trace and in neither count. *)
Record World := {
  state : AppState;
  mapRef : option MapView;
  permissionPending : nat;
  positionPending : nat;
  effects : list Effect
}.

Definition update (f : AppState -> AppState) (w : World) : World :=
  {| state := f (state w); mapRef := mapRef w;
     permissionPending := permissionPending w;
     positionPending := positionPending w; effects := effects w |}.

Definition perform (e : Effect) (w : World) : World :=
  {| state := state w; mapRef := mapRef w;
     permissionPending := permissionPending w;
     positionPending := positionPending w; effects := effects w ++ [e] |}.

Definition setMapRef (m : option MapView) (w : World) : World :=
  {| state := state w; mapRef := m;
     permissionPending := permissionPending w;
     positionPending := positionPending w; effects := effects w |}.

Definition setPermissionPending (n : nat) (w : World) : World :=
  {| state := state w; mapRef := mapRef w; permissionPending := n;
     positionPending := positionPending w; effects := effects w |}.

Definition setPositionPending (n : nat) (w : World) : World :=
  {| state := state w; mapRef := mapRef w;
     permissionPending := permissionPending w;
     positionPending := n; effects := effects w |}.

(** Statements of a handler, run in source order. *)
Notation "w |> f" := (f w) (at level 45, left associativity, only parsing).

(** ** Calls to the collaborators *)

(** [await Location.requestForegroundPermissionsAsync()]: the call is
    issued and the caller suspends until the promise settles. *)
Definition await_requestForegroundPermissionsAsync (w : World) : World :=
  w |> perform RequestForegroundPermissionsAsync
    |> setPermissionPending (S (permissionPending w)).

(** [await Location.getCurrentPositionAsync({ accuracy })]. *)
Definition await_getCurrentPositionAsync (a : Accuracy) (w : World) : World :=
  w |> perform (GetCurrentPositionAsync a)
    |> setPositionPending (S (positionPending w)).

(** [mapRef.current.animateToRegion(r, duration)] on a mounted map. *)
Definition animateToRegion (r : Region) (duration : JS.number) (w : World)
  : World :=
  match mapRef w with
  | Some m =>
      w |> perform (AnimateToRegion r duration)
        |> setMapRef (Some {| getCamera := getCamera m; targetRegion := r |})
  | None => w
  end.

(** [mapRef.current?.animateCamera(c, { duration })]: the request is put
    on the trace and the map is recorded at the camera it was sent to,
    which is what [getCamera()] reports once the animation has run its
    course.  What the map reports while the animation is still running
    is the map's business; it reaches the screen as a [MapMoved] event. *)
Definition animateCamera (c : Camera) (duration : JS.number) (w : World)
  : World :=
  match mapRef w with
  | Some m =>
      w |> perform (AnimateCamera c duration)
        |> setMapRef (Some {| getCamera := JS.Fulfilled c;
                              targetRegion := targetRegion m |})
  | None => w
  end.

(** ** The mount effect: request permission on app load *)

Definition useEffect_mount (w : World) : World :=
  w |> update (setLoading true)
    |> await_requestForegroundPermissionsAsync.

(** The rest of the [try] block, once the permission promise is
    fulfilled, followed by [finally]. *)
Definition useEffect_fulfilled (status : PermissionStatus) (w : World)
  : World :=
  (match status with
   | granted =>
       w |> update (setPermissionGranted true)
         |> update (setErrorMsg None)
   | _ =>
       w |> update (setErrorMsg (Some "Location permission was denied!"))
         |> update (setPermissionGranted false)
   end)
    |> update (setLoading false).

(** The [catch] block followed by [finally]. *)
Definition useEffect_rejected (error : Error) (w : World) : World :=
  w |> update (setErrorMsg (Some "Error getting permission!"))
    |> perform (ConsoleError "" error)
    |> update (setLoading false).

(** ** [getCurrentPosition] *)

Definition permissionAlert : Effect :=
  AlertAlert "Permission Required" "The app needs location permission!"
    [ {| text := "Cancel"; style := Some "cancel"; onPress := None |};
      {| text := "Settings"; style := None;
         onPress := Some RequestPermissionsAgain |} ].

(** The function up to its [await]: either the early [return] after the
    alert, or the two state updates and the call to the position
    service. *)
Definition getCurrentPosition (w : World) : World :=
  if negb (permissionGranted (state w)) then
    w |> perform permissionAlert
  else
    w |> update (setLoading true)
      |> update (setErrorMsg None)
      |> await_getCurrentPositionAsync BestForNavigation.

Definition newRegion (currentLocation : LocationObject) : Region :=
  {| latitude := coords_latitude (coords currentLocation);
     longitude := coords_longitude (coords currentLocation);
     latitudeDelta := 0.01;
     longitudeDelta := 0.01 |}.

(** The rest of the [try] block once the position promise is fulfilled,
    followed by [finally]. *)
Definition getCurrentPosition_fulfilled (currentLocation : LocationObject)
  (w : World) : World :=
  w |> update (setLocation (Some currentLocation))
    |> update (setRegion (newRegion currentLocation))
    |> animateToRegion (newRegion currentLocation) 1000
    |> update (setLoading false).

(** The [catch] block followed by [finally]. *)
Definition getCurrentPosition_rejected (error : Error) (w : World) : World :=
  w |> perform (ConsoleError "Error getting location:" error)
    |> update (setErrorMsg
         (Some "Could not get current location. Make sure GPS is enabled!"))
    |> update (setLoading false).

(** ** Zoom *)

Definition withZoom (camera : Camera) (z : JS.number) : Camera :=
  {| center := center camera; heading := heading camera;
     pitch := pitch camera; zoom := Some z; altitude := altitude camera |}.

(** [(camera.zoom || 10) + 1] *)
Definition zoomIn_zoom (z : option JS.number) : JS.number :=
  (JS.or_else z 10 + 1)%float.

(** [newZoom > 0 ? newZoom : 1] with [newZoom = (camera.zoom || 10) - 1] *)
Definition zoomOut_zoom (z : option JS.number) : JS.number :=
  let newZoom := (JS.or_else z 10 - 1)%float in
  if JS.gt newZoom 0 then newZoom else 1%float.

(** A zoom handler is [getCamera().then(callback).catch(log)].  It is
    embedded at the moment its read settles, on the camera the map
    reports then: the press and the callback are one step.  Two presses
    whose reads both settle before the first animation is over are
    therefore not the composition of two such steps; statements about a
    press that follows another say what the map reports at that press. *)
Definition zoomIn (w : World) : World :=
  match mapRef w with
  | Some m =>
      match getCamera m with
      | JS.Fulfilled camera =>
          w |> perform GetCamera
            |> animateCamera (withZoom camera (zoomIn_zoom (zoom camera))) 300
      | JS.Rejected error =>
          w |> perform GetCamera
            |> perform (ConsoleError "Zoom in error:" error)
      end
  | None => w
  end.

Definition zoomOut (w : World) : World :=
  match mapRef w with
  | Some m =>
      match getCamera m with
      | JS.Fulfilled camera =>
          w |> perform GetCamera
            |> animateCamera (withZoom camera (zoomOut_zoom (zoom camera))) 300
      | JS.Rejected error =>
          w |> perform GetCamera
            |> perform (ConsoleError "Zoom out error:" error)
      end
  | None => w
  end.

(** ** Reset, map type, re-centre *)

Definition resetToConstanta (w : World) : World :=
  w |> update (setRegion CONSTANTA_REGION)
    |> update (setLocation None)
    |> update (setShowDetails false)
    |> animateToRegion CONSTANTA_REGION 1000.

Definition toggleMapType (w : World) : World :=
  w |> update (setMapType (fun prev =>
         match prev with standard => satellite | satellite => standard end)).

Definition centerOnUser (w : World) : World :=
  match location (state w) with
  | Some l => w |> animateToRegion (newRegion l) 1000
  | None => w
  end.

(** ** The acquisition state seen by the user

    The program keeps no enumeration for the state of an acquisition; it
    is what the three cells the JSX renders from show on screen: the
    spinner and overlay ([{loading && ...}]), the error banner
    ([{errorMsg && ...}]) and the user's marker ([{location && ...}]).
    [acquisitionState] reads the four named states off those cells, the
    spinner first, then the banner. *)

Inductive AcquisitionState :=
| Idle
| InFlight
| Succeeded
| Failed (reason : string).

Definition acquisitionState (s : AppState) : AcquisitionState :=
  if loading s then InFlight
  else match errorMsg s with
       | Some reason => Failed reason
       | None =>
           match location s with
           | Some _ => Succeeded
           | None => Idle
           end
       end.

(** ** The screen as a transition system *)

Section Screen.

(** [Number.prototype.toFixed], a built-in of the JavaScript engine. *)
Variable toFixed : JS.number -> nat -> string.

Definition detailsMessage (c : LocationObjectCoords) : string :=
  "**Coordinates:**" ++ JS.nl ++
  "Latitude: " ++ toFixed (coords_latitude c) 6 ++ JS.nl ++
  "Longitude: " ++ toFixed (coords_longitude c) 6 ++ JS.nl ++ JS.nl ++
  "**Information:**" ++ JS.nl ++
  (match coords_altitude c with
   | Some a =>
       if JS.truthy a then "Altitude: " ++ toFixed a 2 ++ " m" ++ JS.nl
       else ""
   | None => ""
   end) ++
  "Accuracy: ±" ++
  JS.str_or_else
    (option_map (fun a => toFixed a 2) (coords_accuracy c)) "N/A" ++
  " m" ++ JS.nl ++
  (match coords_speed c with
   | Some s =>
       if JS.truthy s then
         "Speed: " ++ toFixed (s * 3.6)%float 2 ++ " km/h" ++ JS.nl
       else ""
   | None => ""
   end) ++
  (match coords_heading c with
   | Some h =>
       if JS.truthy h then "Direction: " ++ toFixed h 0 ++ "°" else ""
   | None => ""
   end).

Definition showLocationDetails (w : World) : World :=
  match location (state w) with
  | None => w
  | Some l =>
      w |> perform
        (AlertAlert "📍 Location Details" (detailsMessage (coords l))
           [ {| text := "OK"; style := Some "default"; onPress := None |} ])
  end.

(** What can happen to the mounted screen: a promise settles, the user
    moves the map, or the user presses something. *)
Inductive Event :=
| PermissionSettled (r : JS.Settled PermissionStatus Error)
| PositionSettled (r : JS.Settled LocationObject Error)
| MapMoved (c : JS.Settled Camera Error)
| PressZoomIn
| PressZoomOut
| PressCenterOnUser
| PressToggleMapType
| PressMainButton
| PressDetails
| PressReset
| PressUserMarker
| PressCloseDetails
| PressAlertSettings.

Definition isPermissionAlert (e : Effect) : bool :=
  match e with
  | AlertAlert title _ _ => String.eqb title "Permission Required"
  | _ => false
  end.

(** One event, dispatched as the JSX wires it: a control that is not
    rendered or is [disabled] does not call its handler, and a promise
    that was never issued does not settle. *)
Definition step (w : World) (e : Event) : World :=
  match e with
  | PermissionSettled r =>
      match permissionPending w with
      | O => w
      | S n =>
          match r with
          | JS.Fulfilled status =>
              w |> setPermissionPending n |> useEffect_fulfilled status
          | JS.Rejected error =>
              w |> setPermissionPending n |> useEffect_rejected error
          end
      end
  | PositionSettled r =>
      match positionPending w with
      | O => w
      | S n =>
          match r with
          | JS.Fulfilled currentLocation =>
              w |> setPositionPending n
                |> getCurrentPosition_fulfilled currentLocation
          | JS.Rejected error =>
              w |> setPositionPending n
                |> getCurrentPosition_rejected error
          end
      end
  | MapMoved c =>
      match mapRef w with
      | Some m =>
          w |> setMapRef
            (Some {| getCamera := c; targetRegion := targetRegion m |})
      | None => w
      end
  | PressZoomIn => zoomIn w
  | PressZoomOut => zoomOut w
  | PressCenterOnUser =>
      (* disabled={!location} *)
      match location (state w) with
      | Some _ => centerOnUser w
      | None => w
      end
  | PressToggleMapType => toggleMapType w
  | PressMainButton =>
      (* disabled={loading} *)
      if loading (state w) then w else getCurrentPosition w
  | PressDetails =>
      (* {location && (...)} *)
      match location (state w) with
      | Some _ => showLocationDetails w
      | None => w
      end
  | PressReset =>
      match location (state w) with
      | Some _ => resetToConstanta w
      | None => w
      end
  | PressUserMarker =>
      (* {location && (<Marker ... onPress={() => setShowDetails(true)}>)} *)
      match location (state w) with
      | Some _ => w |> update (setShowDetails true)
      | None => w
      end
  | PressCloseDetails =>
      (* {showDetails && location && (...)} *)
      match location (state w) with
      | Some _ =>
          if showDetails (state w) then w |> update (setShowDetails false)
          else w
      | None => w
      end
  | PressAlertSettings =>
      if existsb isPermissionAlert (effects w) then
        w |> perform RequestForegroundPermissionsAsync
      else w
  end.

Definition run (w : World) (events : list Event) : World :=
  fold_left step events w.

(** The screen right after its first render: the initial state, the map
    attached to [mapRef], and the mount effect run up to its [await]. *)
Definition mounted (camera : JS.Settled Camera Error) : World :=
  {| state := useState_initial;
     mapRef := Some {| getCamera := camera;
                       targetRegion := CONSTANTA_REGION |};
     permissionPending := 0;
     positionPending := 0;
     effects := [] |}
    |> useEffect_mount.


End Screen.

(** ** Shape of the worlds the screen can be in *)

(** The map stays mounted; at most one position request and at most one
    permission request are pending, never both; while a request is
    pending the spinner is on, and while a position request is pending
    no error is shown and the permission is granted. *)
Definition consistent (w : World) : Prop :=
  (exists m, mapRef w = Some m) /\
  positionPending w + permissionPending w <= 1 /\
  (0 < positionPending w + permissionPending w ->
   loading (state w) = true) /\
  (0 < positionPending w ->
   errorMsg (state w) = None /\ permissionGranted (state w) = true).

(** The calls made to the collaborators between [w] and a later [w']. *)
Definition issued (w w' : World) : list Effect :=
  skipn (List.length (effects w)) (effects w').



(** ** Concrete inputs used to exercise the statements *)

(** A camera over the city at zoom level 12. *)
Definition cityCamera : Camera :=
  {| center := CONSTANTA_COORDINATES; heading := 0; pitch := 0;
     zoom := Some 12%float; altitude := None |}.


(** A fix near the sea front, accurate to five metres. *)
Definition seaFront : LocationObject :=
  {| coords :=
       {| coords_latitude := 44.18; coords_longitude := 28.65;
          coords_altitude := None; coords_accuracy := Some 5%float;
          coords_altitudeAccuracy := None; coords_heading := None;
          coords_speed := None |};
     timestamp := 1700000000000 |}.

(** The whole zoom levels a tile map offers, 2 to 22. *)
Definition wholeZoomLevels : list JS.number :=
  [ 2; 3; 4; 5; 6; 7; 8; 9; 10; 11; 12; 13; 14; 15; 16; 17; 18; 19; 20;
    21; 22 ]%float.

(** A stand-in for [toFixed] that prints every number as a dash; no
    statement below reads the text of the details alert. *)
Definition dashFixed (x : JS.number) (digits : nat) : string := "-".

(** Permission granted, then the main button pressed: one call to the
    position service is pending. *)
Definition acquiring : World :=
  run dashFixed (mounted (JS.Fulfilled cityCamera))
    [ PermissionSettled (JS.Fulfilled granted); PressMainButton ].

(** A first acquisition succeeded and a second one timed out. *)
Definition failedAfterSuccess : list Event :=
  [ PermissionSettled (JS.Fulfilled granted);
    PressMainButton; PositionSettled (JS.Fulfilled seaFront);
    PressMainButton; PositionSettled (JS.Rejected "timeout") ].

(** ** What stays true of the state cells along a run *)

Definition isPositionCall (e : Effect) : bool :=
  match e with
  | GetCurrentPositionAsync _ => true
  | _ => false
  end.

(** The region cell follows the stored location; the details flag is
    only up with a location; the spinner is only on with a request
    pending and with no error shown; a stored location or a call to the
    position service in the trace means the permission was granted and
    its request has settled; and until it settles the permission is not
    granted. *)
Definition tracking (w : World) : Prop :=
  region (state w) =
    match location (state w) with
    | Some l => newRegion l
    | None => CONSTANTA_REGION
    end /\
  (showDetails (state w) = true -> location (state w) <> None) /\
  (loading (state w) = true ->
   0 < positionPending w + permissionPending w) /\
  (loading (state w) = true -> errorMsg (state w) = None) /\
  (location (state w) <> None \/
   existsb isPositionCall (effects w) = true ->
   permissionGranted (state w) = true /\ permissionPending w = 0) /\
  (0 < permissionPending w -> permissionGranted (state w) = false).


(** The animations the handlers ask the map for: a region animation runs
    1000 ms towards the city region or a 0.01 by 0.01 degree region, a
    camera animation runs 300 ms. *)
Definition plannedAnimation (e : Effect) : Prop :=
  match e with
  | AnimateToRegion r duration =>
      duration = 1000%float /\
      (r = CONSTANTA_REGION \/
       (latitudeDelta r = 0.01%float /\ longitudeDelta r = 0.01%float))
  | AnimateCamera _ duration => duration = 300%float
  | _ => True
  end.

(** A fix at sea level, standing still and facing due north: altitude,
    speed and heading are all 0, and the accuracy is not reported. *)
Definition seaLevelCoords : LocationObjectCoords :=
  {| coords_latitude := 44.18; coords_longitude := 28.65;
     coords_altitude := Some 0%float; coords_accuracy := None;
     coords_altitudeAccuracy := None; coords_heading := Some 0%float;
     coords_speed := Some 0%float |}.


(** ** Proof steps shared by the case analyses on events *)

(** Open every handler down to the setters. *)
Ltac unfold_handlers :=
  unfold zoomIn, zoomOut, centerOnUser, resetToConstanta, toggleMapType,
    showLocationDetails, getCurrentPosition, getCurrentPosition_fulfilled,
    getCurrentPosition_rejected, useEffect_fulfilled, useEffect_rejected,
    animateCamera, animateToRegion.

(** Split on whatever the goal still branches on. *)
Ltac case_matches :=
  repeat match goal with
    | |- context [match ?x with _ => _ end] => destruct x eqn:?; cbn in *
    end.

(** ** Facts about binary64 numbers *)

Module Number.

Local Open Scope float_scope.







End Number.

(** ** The invariant of the transition system *)

Section Invariant.

Variable toFixed : JS.number -> nat -> string.

Lemma mounted_consistent (camera : JS.Settled Camera Error) :
  consistent (mounted camera).
Proof.
  unfold consistent; simpl. repeat split; eauto; intros; lia.
Qed.

Lemma step_consistent (w : World) (e : Event) :
  consistent w -> consistent (step toFixed w e).
Proof.
  destruct w as [[loc reg ld err pg mt sd] mref pp qp eff].
  unfold consistent; simpl. intros ([m Hm] & Hle & Hld & Herr). subst mref.
  destruct e; simpl; unfold_handlers; simpl; case_matches;
    repeat split; eauto; intros; try lia; try discriminate;
    try (apply Hld; lia); try (apply Herr; lia); try congruence;
    try (destruct pg; simpl in *; congruence).
Qed.

Lemma run_consistent (events : list Event) (w : World) :
  consistent w -> consistent (run toFixed w events).
Proof.
  revert w. induction events as [ | e events IH]; intros w Hw; simpl.
  - exact Hw.
  - apply IH. apply step_consistent. exact Hw.
Qed.


End Invariant.

(** ** A refusal stays on screen *)

Section Refusal.

Variable toFixed : JS.number -> nat -> string.





End Refusal.

(** ** Bookkeeping of the trace of calls *)

Lemma skipn_length_app {A : Type} (l l' : list A) :
  skipn (List.length l) (l ++ l')%list = l'.
Proof.
  induction l as [ | a l IH]; simpl; [ reflexivity | exact IH ].
Qed.

Lemma issued_app (w w' : World) (l : list Effect) :
  effects w' = (effects w ++ l)%list -> issued w w' = l.
Proof.
  unfold issued. intros ->. apply skipn_length_app.
Qed.

Lemma issued_none (w w' : World) :
  effects w' = effects w -> issued w w' = [].
Proof.
  intros H. apply issued_app. rewrite H. symmetry. apply app_nil_r.
Qed.

(** ** Acquiring the position *)



(** C2. In every state the mounted screen can reach, at most one call to
    the position service is in flight, and while one is in flight
    [loading] is true.  The main button is [disabled] while [loading] is
    true, so a second press changes nothing and issues no call; the one
    pending call, once fulfilled, is the one whose sample is stored. *)
Theorem at_most_one_acquisition_in_flight
  (toFixed : JS.number -> nat -> string)
  (camera : JS.Settled Camera Error) (events : list Event) :
  let w := run toFixed (mounted camera) events in
  positionPending w <= 1 /\
  (positionPending w = 1 -> loading (state w) = true) /\
  (loading (state w) = true ->
   step toFixed w PressMainButton = w /\
   issued w (step toFixed w PressMainButton) = []) /\
  (forall l, positionPending w = 1 ->
     let w' := step toFixed w (PositionSettled (JS.Fulfilled l)) in
     location (state w') = Some l /\ positionPending w' = 0).
Proof.
  intros w.
  assert (Hc : consistent w)
    by (apply run_consistent, mounted_consistent).
  clearbody w. destruct w as [s mref pp qp eff].
  destruct Hc as ([m Hm] & Hle & Hld & _). cbn in Hm, Hle, Hld. subst mref.
  cbn [positionPending state step].
  repeat split.
  - lia.
  - intros H. apply Hld. lia.
  - rewrite H. reflexivity.
  - rewrite H. apply issued_none. reflexivity.
  - subst qp. reflexivity.
  - subst qp. reflexivity.
Qed.

(** The guard is the button's, not the function's: run on a world where
    a call is already pending, [getCurrentPosition] itself would issue a
    second one.  Its only caller is the main button's [onPress]. *)
Remark getCurrentPosition_relies_on_button :
  positionPending acquiring = 1 /\
  positionPending (getCurrentPosition acquiring) = 2 /\
  step dashFixed acquiring PressMainButton = acquiring.
Proof. repeat split. Qed.

(** C3. Whenever the pending call to the position service is fulfilled
    with a sample, that sample becomes the stored location as it is, the
    acquisition state is [Succeeded], the region is the one centred on
    the sample's coordinate with a span of 0.01 degrees on both axes, and
    the map is asked to animate to that region. *)
Theorem acquisition_success
  (toFixed : JS.number -> nat -> string)
  (camera : JS.Settled Camera Error) (events : list Event)
  (l : LocationObject) :
  let w := run toFixed (mounted camera) events in
  positionPending w = 1 ->
  let w' := step toFixed w (PositionSettled (JS.Fulfilled l)) in
  let tight :=
    {| latitude := coords_latitude (coords l);
       longitude := coords_longitude (coords l);
       latitudeDelta := 0.01;
       longitudeDelta := 0.01 |} in
  permissionGranted (state w) = true /\
  location (state w') = Some l /\
  loading (state w') = false /\
  errorMsg (state w') = None /\
  acquisitionState (state w') = Succeeded /\
  region (state w') = tight /\
  issued w w' = [AnimateToRegion tight 1000] /\
  option_map targetRegion (mapRef w') = Some tight.
Proof.
  intros w Hp.
  assert (Hc : consistent w)
    by (apply run_consistent, mounted_consistent).
  clearbody w. destruct w as [s mref pp qp eff].
  destruct Hc as ([m Hm] & _ & _ & Herr). cbn in Hp, Hm, Herr. subst mref qp.
  destruct Herr as [Herr Hg]; [ lia | ].
  cbn zeta. cbn [step positionPending state].
  unfold getCurrentPosition_fulfilled, animateToRegion, acquisitionState.
  cbn. rewrite Herr.
  repeat split; try assumption.
  apply skipn_length_app.
Qed.

(** C4. Whenever a pending call to the position service is rejected, for
    whatever reason, the acquisition state is [Failed] with a readable
    message, the stored location, the region and the map are what they
    were, and the only call made is the [console.error]. *)
Theorem acquisition_failure
  (toFixed : JS.number -> nat -> string)
  (w : World) (n : nat) (error : Error) :
  positionPending w = S n ->
  let w' := step toFixed w (PositionSettled (JS.Rejected error)) in
  loading (state w') = false /\
  errorMsg (state w') =
    Some "Could not get current location. Make sure GPS is enabled!" /\
  acquisitionState (state w') =
    Failed "Could not get current location. Make sure GPS is enabled!" /\
  location (state w') = location (state w) /\
  region (state w') = region (state w) /\
  mapRef w' = mapRef w /\
  issued w w' = [ConsoleError "Error getting location:" error].
Proof.
  intros Hp. cbn zeta. cbn [step]. rewrite Hp.
  repeat split. apply issued_app. reflexivity.
Qed.

Lemma acquisition_success_witness :
  positionPending acquiring = 1 /\
  let w' := step dashFixed acquiring (PositionSettled (JS.Fulfilled seaFront)) in
  location (state w') = Some seaFront /\
  acquisitionState (state w') = Succeeded /\
  region (state w') =
    {| latitude := 44.18; longitude := 28.65;
       latitudeDelta := 0.01; longitudeDelta := 0.01 |}.
Proof.
  split; [ reflexivity | ].
  destruct (acquisition_success dashFixed (JS.Fulfilled cityCamera)
              [ PermissionSettled (JS.Fulfilled granted); PressMainButton ]
              seaFront eq_refl) as (_ & Hl & _ & _ & Ha & Hr & _).
  exact (conj Hl (conj Ha Hr)).
Defined.

Lemma acquisition_failure_witness :
  positionPending acquiring = 1 /\
  let w' :=
    step dashFixed acquiring (PositionSettled (JS.Rejected "timeout")) in
  acquisitionState (state w') =
    Failed "Could not get current location. Make sure GPS is enabled!" /\
  location (state w') = None.
Proof.
  split; [ reflexivity | ].
  destruct (acquisition_failure dashFixed acquiring 0 "timeout" eq_refl)
    as (_ & _ & Ha & Hl & _).
  exact (conj Ha Hl).
Defined.

(** ** Zoom *)









(** Every whole zoom level from 2 to 22 meets both conditions, and from
    each of them [zoomOut] lands on a zoom of at least 1. *)
Lemma wholeZoomLevels_exact :
  Forall (fun z => (2 <=? z)%float = true /\ (z + 1 - 1)%float = z /\
                   (1 <=? zoomOut_zoom (Some z))%float = true)
    wholeZoomLevels.
Proof. repeat constructor. Qed.


(** A [zoomOut] whose read settles before the map has taken up the
    camera [zoomIn] asked for steps down from the old camera: from zoom
    12, [zoomIn] asks for 13 and such a [zoomOut] asks for 11. *)
Remark zoomOut_on_the_old_camera :
  let w := mounted (JS.Fulfilled cityCamera) in
  let w1 := step dashFixed (zoomIn w) (MapMoved (JS.Fulfilled cityCamera)) in
  issued w (zoomIn w) = [GetCamera; AnimateCamera (withZoom cityCamera 13) 300] /\
  issued w1 (zoomOut w1) = [GetCamera; AnimateCamera (withZoom cityCamera 11) 300].
Proof. split; reflexivity. Qed.





(** ** Reset *)

(** After one success and one failure the banner shows the failure;
    pressing Reset drops the location and leaves the banner, so the
    acquisition state is [Failed], not [Idle]. *)
Lemma reset_keeps_failure :
  let w := run dashFixed (mounted (JS.Fulfilled cityCamera)) failedAfterSuccess in
  location (state w) = Some seaFront /\
  location (state (step dashFixed w PressReset)) = None /\
  errorMsg (state (step dashFixed w PressReset)) =
    Some "Could not get current location. Make sure GPS is enabled!" /\
  acquisitionState (state (step dashFixed w PressReset)) =
    Failed "Could not get current location. Make sure GPS is enabled!" /\
  acquisitionState (state (step dashFixed w PressReset)) <> Idle.
Proof. repeat split. discriminate. Qed.

(** C6, amended. From every prior state [resetToConstanta] yields: no
    stored location, the details panel hidden, the region set to the
    Constanta region (spans 0.0922 and 0.0421 degrees) and the mounted
    map asked to animate to it over 1000 ms.  [loading] and [errorMsg]
    are not touched, so the acquisition state afterwards is [Idle]
    exactly when no request is in flight and no error is shown. *)
Theorem resetToConstanta_result (w : World) :
  let w' := resetToConstanta w in
  location (state w') = None /\
  showDetails (state w') = false /\
  region (state w') = CONSTANTA_REGION /\
  CONSTANTA_REGION =
    {| latitude := 44.159801; longitude := 28.634800;
       latitudeDelta := 0.0922; longitudeDelta := 0.0421 |} /\
  issued w w' =
    match mapRef w with
    | Some _ => [AnimateToRegion CONSTANTA_REGION 1000]
    | None => []
    end /\
  option_map targetRegion (mapRef w') =
    option_map (fun _ => CONSTANTA_REGION) (mapRef w) /\
  loading (state w') = loading (state w) /\
  errorMsg (state w') = errorMsg (state w) /\
  acquisitionState (state w') =
    if loading (state w) then InFlight
    else match errorMsg (state w) with
         | Some reason => Failed reason
         | None => Idle
         end.
Proof.
  destruct w as [s mref pp qp eff].
  unfold resetToConstanta, animateToRegion, acquisitionState. cbn.
  destruct mref as [m | ]; cbn; repeat split;
    try (apply (skipn_length_app eff));
    try (rewrite <- (app_nil_r eff) at 2; apply (skipn_length_app eff)).
  all: destruct (loading s); destruct (errorMsg s); reflexivity.
Qed.

(** ** The error banner *)



(** ** The details controls *)

(** C9. With no stored location, [showLocationDetails] returns at once
    and the details controls are not on screen: the Details button, the
    user marker that opens the panel and the panel's close button all
    leave the whole world, state and calls, as it was. *)
Theorem showDetails_gated
  (toFixed : JS.number -> nat -> string) (w : World) :
  location (state w) = None ->
  showLocationDetails toFixed w = w /\
  step toFixed w PressDetails = w /\
  step toFixed w PressUserMarker = w /\
  step toFixed w PressCloseDetails = w.
Proof.
  intros H. unfold showLocationDetails. cbn [step]. rewrite H.
  repeat split.
Qed.

Lemma showDetails_gated_witness :
  let w := mounted (JS.Fulfilled cityCamera) in
  location (state w) = None /\
  showLocationDetails dashFixed w = w /\
  step dashFixed w PressUserMarker = w.
Proof.
  split; [ reflexivity | ].
  destruct (showDetails_gated dashFixed (mounted (JS.Fulfilled cityCamera))
              eq_refl) as (Hs & _ & Hm & _).
  exact (conj Hs Hm).
Defined.

(** With a stored location the same controls do act: the marker opens
    the panel and the Details button raises the alert. *)
Lemma showDetails_acts
  (toFixed : JS.number -> nat -> string) (w : World) (l : LocationObject) :
  location (state w) = Some l ->
  showDetails (state (step toFixed w PressUserMarker)) = true /\
  issued w (step toFixed w PressDetails) =
    [AlertAlert "📍 Location Details" (detailsMessage toFixed (coords l))
       [ {| text := "OK"; style := Some "default"; onPress := None |} ]].
Proof.
  intros H. cbn [step]. unfold showLocationDetails. rewrite H.
  split; [ reflexivity | apply issued_app; reflexivity ].
Qed.

(** * Properties of the rest of the screen *)

(** ** The state cells along a run *)

Section Tracking.

Variable toFixed : JS.number -> nat -> string.

Lemma mounted_tracking (camera : JS.Settled Camera Error) :
  tracking (mounted camera).
Proof.
  unfold tracking; cbn. repeat split; intros; try lia; try discriminate.
  all: destruct H as [H | H]; [ now elim H | discriminate H ].
Qed.

Lemma existsb_snoc_other (eff : list Effect) (e : Effect) :
  isPositionCall e = false ->
  existsb isPositionCall (eff ++ [e]) = existsb isPositionCall eff.
Proof.
  intros H. rewrite existsb_app. cbn. rewrite H, !orb_false_r. reflexivity.
Qed.

Lemma step_tracking (w : World) (e : Event) :
  consistent w -> tracking w -> tracking (step toFixed w e).
Proof.
  destruct w as [[loc reg ld err pg mt sd] mref pp qp eff].
  unfold consistent, tracking; cbn.
  intros ([m Hm] & Hle & Hld & Herr) (Hr & Hs & Hl & He & Hg & Hp).
  subst mref.
  destruct e; cbn; unfold_handlers; cbn; case_matches;
    rewrite ?app_assoc, ?existsb_snoc_other by reflexivity;
    repeat split; intros; try lia; try discriminate; try congruence;
    try (apply Hg; tauto); try tauto;
    destruct pg, ld; cbn in *; intuition (try congruence; try lia).
Qed.

Lemma run_tracking (events : list Event) (w : World) :
  consistent w -> tracking w ->
  consistent (run toFixed w events) /\ tracking (run toFixed w events).
Proof.
  revert w. induction events as [ | e events IH]; intros w Hc Ht; cbn.
  - split; assumption.
  - apply IH; [ apply step_consistent | apply step_tracking ]; assumption.
Qed.

Lemma reached (camera : JS.Settled Camera Error) (events : list Event) :
  consistent (run toFixed (mounted camera) events) /\
  tracking (run toFixed (mounted camera) events).
Proof.
  apply run_tracking; [ apply mounted_consistent | apply mounted_tracking ].
Qed.

(** Once the permission request has settled nothing changes the
    permission cell any more. *)
Lemma step_permission_settled (w : World) (e : Event) :
  permissionPending w = 0 ->
  permissionPending (step toFixed w e) = 0 /\
  permissionGranted (state (step toFixed w e)) = permissionGranted (state w).
Proof.
  destruct w as [[loc reg ld err pg mt sd] mref pp qp eff]. cbn. intros ->.
  destruct e; cbn; unfold_handlers; cbn; case_matches; split; reflexivity.
Qed.

Lemma run_permission_settled (events : list Event) (w : World) :
  permissionPending w = 0 ->
  permissionPending (run toFixed w events) = 0 /\
  permissionGranted (state (run toFixed w events)) =
    permissionGranted (state w).
Proof.
  revert w. induction events as [ | e events IH]; intros w H; cbn.
  - split; [ exact H | reflexivity ].
  - destruct (step_permission_settled w e H) as (Hp & Hg).
    destruct (IH _ Hp) as (Hp' & Hg'). split; [ exact Hp' | ].
    transitivity (permissionGranted (state (step toFixed w e)));
      [ exact Hg' | exact Hg ].
Qed.

Lemma In_positionCall (a : Accuracy) (eff : list Effect) :
  In (GetCurrentPositionAsync a) eff -> existsb isPositionCall eff = true.
Proof.
  intros H. apply existsb_exists.
  exists (GetCurrentPositionAsync a). split; [ exact H | reflexivity ].
Qed.

Lemma step_plannedAnimation (w : World) (e : Event) :
  Forall plannedAnimation (effects w) ->
  Forall plannedAnimation (effects (step toFixed w e)).
Proof.
  destruct w as [[loc reg ld err pg mt sd] mref pp qp eff]. cbn. intros H.
  destruct e; cbn; unfold_handlers; cbn; case_matches;
    rewrite <- ?app_assoc; try assumption;
    apply Forall_app; (split; [ assumption | ]);
    repeat (apply Forall_cons || apply Forall_nil); cbn;
    try exact I; try reflexivity;
    (split; [ reflexivity | ]);
    first [ left; reflexivity | right; split; reflexivity ].
Qed.

End Tracking.

(** ** Along every run of the mounted screen *)

(** X2. In every state the screen can reach, [loading] is true exactly
    while one request (permission or position) is pending, and while it
    is true no error message is shown. *)
Theorem loading_while_pending
  (toFixed : JS.number -> nat -> string)
  (camera : JS.Settled Camera Error) (events : list Event) :
  let w := run toFixed (mounted camera) events in
  (loading (state w) = true <->
   positionPending w + permissionPending w = 1) /\
  (loading (state w) = true -> errorMsg (state w) = None).
Proof.
  intros w. destruct (reached toFixed camera events) as (Hc & Ht).
  fold w in Hc, Ht. clearbody w.
  destruct Hc as (_ & Hle & Hld & _).
  destruct Ht as (_ & _ & Hl & He & _).
  repeat split.
  - intros H. apply Hl in H. lia.
  - intros H. apply Hld. lia.
  - exact He.
Qed.

(** X3. In every state the screen can reach, the [region] cell is the
    0.01-degree region around the stored location when there is one,
    and the Constanta region when there is none. *)
Theorem region_follows_location
  (toFixed : JS.number -> nat -> string)
  (camera : JS.Settled Camera Error) (events : list Event) :
  let w := run toFixed (mounted camera) events in
  region (state w) =
    match location (state w) with
    | Some l =>
        {| latitude := coords_latitude (coords l);
           longitude := coords_longitude (coords l);
           latitudeDelta := 0.01; longitudeDelta := 0.01 |}
    | None => CONSTANTA_REGION
    end.
Proof.
  intros w. destruct (reached toFixed camera events) as (_ & Ht).
  exact (proj1 Ht).
Qed.

(** X4. In every state the screen can reach, [showDetails] is true only
    when a location is stored: the details panel, rendered under
    [showDetails && location], is on screen exactly when the flag is up. *)
Theorem details_flag_needs_location
  (toFixed : JS.number -> nat -> string)
  (camera : JS.Settled Camera Error) (events : list Event) :
  let w := run toFixed (mounted camera) events in
  showDetails (state w) = true ->
  exists l, location (state w) = Some l.
Proof.
  intros w H. destruct (reached toFixed camera events) as (_ & Ht).
  fold w in Ht. destruct Ht as (_ & Hs & _).
  destruct (location (state w)) as [l | ] eqn:Hl.
  - exists l. reflexivity.
  - exfalso. apply (Hs H). reflexivity.
Qed.

Lemma details_flag_needs_location_witness :
  let w :=
    run dashFixed (mounted (JS.Fulfilled cityCamera))
      [ PermissionSettled (JS.Fulfilled granted); PressMainButton;
        PositionSettled (JS.Fulfilled seaFront); PressUserMarker ] in
  showDetails (state w) = true /\ exists l, location (state w) = Some l.
Proof.
  split; [ reflexivity | ].
  exact (details_flag_needs_location dashFixed (JS.Fulfilled cityCamera)
           [ PermissionSettled (JS.Fulfilled granted); PressMainButton;
             PositionSettled (JS.Fulfilled seaFront); PressUserMarker ]
           eq_refl).
Defined.

(** X5. In every state the screen can reach, if the position service
    was ever called, or a location is stored, then the permission
    request has settled and [permissionGranted] is true. *)
Theorem position_call_needs_permission
  (toFixed : JS.number -> nat -> string)
  (camera : JS.Settled Camera Error) (events : list Event) :
  let w := run toFixed (mounted camera) events in
  ((exists a, In (GetCurrentPositionAsync a) (effects w)) \/
   (exists l, location (state w) = Some l)) ->
  permissionGranted (state w) = true /\ permissionPending w = 0.
Proof.
  intros w H. destruct (reached toFixed camera events) as (_ & Ht).
  fold w in Ht. destruct Ht as (_ & _ & _ & _ & Hg & _).
  apply Hg. destruct H as [[a Ha] | [l Hl]].
  - right. exact (In_positionCall a _ Ha).
  - left. rewrite Hl. discriminate.
Qed.

Lemma position_call_needs_permission_witness :
  In (GetCurrentPositionAsync BestForNavigation) (effects acquiring) /\
  permissionGranted (state acquiring) = true.
Proof.
  assert (H : In (GetCurrentPositionAsync BestForNavigation)
                (effects acquiring)) by (cbn; auto).
  split; [ exact H | ].
  exact (proj1 (position_call_needs_permission dashFixed
                  (JS.Fulfilled cityCamera)
                  [ PermissionSettled (JS.Fulfilled granted);
                    PressMainButton ]
                  (or_introl (ex_intro _ BestForNavigation H)))).
Defined.

(** X6. Once the permission request of the mount effect has settled,
    no event changes [permissionGranted] again: not the main button, and
    not the alert's Settings button, whose new request is fired and its
    answer dropped. *)
Theorem permission_decided_once
  (toFixed : JS.number -> nat -> string)
  (w : World) (events : list Event) :
  permissionPending w = 0 ->
  permissionGranted (state (run toFixed w events)) =
    permissionGranted (state w) /\
  permissionPending (run toFixed w events) = 0.
Proof.
  intros H. destruct (run_permission_settled toFixed events w H) as (Hp & Hg).
  split; assumption.
Qed.

Lemma permission_decided_once_witness :
  let w :=
    step dashFixed (mounted (JS.Fulfilled cityCamera))
      (PermissionSettled (JS.Fulfilled denied)) in
  permissionPending w = 0 /\
  permissionGranted
    (state (run dashFixed w
              [ PressMainButton; PressAlertSettings; PressMainButton ]))
  = false.
Proof.
  split; [ reflexivity | ].
  exact (proj1 (permission_decided_once dashFixed
                  (step dashFixed (mounted (JS.Fulfilled cityCamera))
                     (PermissionSettled (JS.Fulfilled denied)))
                  [ PressMainButton; PressAlertSettings; PressMainButton ]
                  eq_refl)).
Defined.



(** X10. When the permission request made on mount settles, [loading]
    goes back to false and [permissionGranted] becomes true exactly when
    the service answered [granted]; a denial, an undetermined answer and
    a failure of the service all leave it false. *)
Theorem permission_outcome
  (toFixed : JS.number -> nat -> string)
  (camera : JS.Settled Camera Error) (events : list Event)
  (r : JS.Settled PermissionStatus Error) :
  let w := run toFixed (mounted camera) events in
  permissionPending w = 1 ->
  let w' := step toFixed w (PermissionSettled r) in
  loading (state w') = false /\
  permissionPending w' = 0 /\
  (permissionGranted (state w') = true <-> r = JS.Fulfilled granted).
Proof.
  intros w Hp. destruct (reached toFixed camera events) as (_ & Ht).
  fold w in Ht. clearbody w. destruct Ht as (_ & _ & _ & _ & _ & Hf).
  assert (Hg : permissionGranted (state w) = false) by (apply Hf; lia).
  destruct w as [[loc reg ld err pg mt sd] mref pp qp eff].
  cbn in Hp, Hg. subst pp pg. cbn zeta.
  destruct r as [[ | | ] | error]; cbn; repeat split;
    intros; try reflexivity; discriminate.
Qed.

Lemma permission_outcome_witness :
  let w := run dashFixed (mounted (JS.Fulfilled cityCamera)) [PressZoomIn] in
  permissionPending w = 1 /\
  permissionGranted
    (state (step dashFixed w (PermissionSettled (JS.Rejected "offline"))))
  = false.
Proof.
  split; [ reflexivity | ].
  destruct (permission_outcome dashFixed (JS.Fulfilled cityCamera)
              [PressZoomIn] (JS.Rejected "offline") eq_refl)
    as (_ & _ & Hiff).
  cbv zeta in Hiff |- *.
  destruct (permissionGranted _) eqn:Hg; [ | reflexivity ].
  destruct Hiff as (Hiff & _). discriminate (Hiff eq_refl).
Defined.

(** X12. A failed acquisition can be retried: after the rejection the
    main button is enabled again, a press clears the message and calls
    the position service once more, and if that call is fulfilled its
    sample is stored with no error left. *)
Theorem retry_after_failure
  (toFixed : JS.number -> nat -> string)
  (camera : JS.Settled Camera Error) (events : list Event)
  (error : Error) (l : LocationObject) :
  let w := run toFixed (mounted camera) events in
  positionPending w = 1 ->
  let w1 := step toFixed w (PositionSettled (JS.Rejected error)) in
  let w2 := step toFixed w1 PressMainButton in
  let w3 := step toFixed w2 (PositionSettled (JS.Fulfilled l)) in
  loading (state w1) = false /\
  issued w1 w2 = [GetCurrentPositionAsync BestForNavigation] /\
  errorMsg (state w2) = None /\
  loading (state w2) = true /\
  location (state w3) = Some l /\
  errorMsg (state w3) = None /\
  loading (state w3) = false.
Proof.
  intros w Hp. destruct (reached toFixed camera events) as (Hc & _).
  fold w in Hc. clearbody w. destruct Hc as ([m Hm] & _ & _ & Hpos).
  destruct Hpos as (_ & Hg); [ lia | ].
  destruct w as [[loc reg ld err pg mt sd] mref pp qp eff].
  cbn in Hp, Hg, Hm. subst qp pg mref. cbn zeta.
  cbn. repeat split.
  apply (skipn_length_app (eff ++ [ConsoleError _ error])).
Qed.

Lemma retry_after_failure_witness :
  positionPending acquiring = 1 /\
  let w1 :=
    step dashFixed acquiring (PositionSettled (JS.Rejected "timeout")) in
  let w2 := step dashFixed w1 PressMainButton in
  location (state (step dashFixed w2 (PositionSettled (JS.Fulfilled seaFront))))
  = Some seaFront.
Proof.
  split; [ reflexivity | ].
  destruct (retry_after_failure dashFixed (JS.Fulfilled cityCamera)
              [ PermissionSettled (JS.Fulfilled granted); PressMainButton ]
              "timeout" seaFront eq_refl) as (_ & _ & _ & _ & Hl & _).
  exact Hl.
Defined.

(** X13. Every animation the screen ever asks the map for is one of
    three: 1000 ms to the Constanta region, 1000 ms to a region spanning
    0.01 degrees on both axes, or a 300 ms camera move. *)
Theorem animations_as_planned
  (toFixed : JS.number -> nat -> string)
  (camera : JS.Settled Camera Error) (events : list Event) :
  Forall plannedAnimation (effects (run toFixed (mounted camera) events)).
Proof.
  assert (H : forall evs w, Forall plannedAnimation (effects w) ->
                Forall plannedAnimation (effects (run toFixed w evs))).
  { induction evs as [ | e evs IH]; intros w Hw; cbn; [ exact Hw | ].
    apply IH, step_plannedAnimation, Hw. }
  apply H. cbn. repeat constructor.
Qed.

(** ** Map type, zoom failures, re-centring *)

(** X1. [toggleMapType] flips the map type and nothing else: the new
    type differs from the old one, every other cell, the map and the
    trace of calls stay as they are, and toggling twice gives back the
    world one started from. *)
Theorem toggleMapType_involutive (w : World) :
  toggleMapType (toggleMapType w) = w /\
  mapType (state (toggleMapType w)) <> mapType (state w) /\
  update (setMapType (fun _ => mapType (state w))) (toggleMapType w) = w.
Proof.
  destruct w as [[loc reg ld err pg mt sd] mref pp qp eff].
  unfold toggleMapType, update, setMapType. cbn.
  destruct mt; repeat split; discriminate.
Qed.

(** X15. The map type is independent of everything else on the screen:
    toggling it before or after any other event, a settling promise
    included, leads to the same world. *)
Theorem toggleMapType_commutes
  (toFixed : JS.number -> nat -> string) (w : World) (e : Event) :
  step toFixed (toggleMapType w) e = toggleMapType (step toFixed w e).
Proof.
  destruct w as [[loc reg ld err pg mt sd] mref pp qp eff].
  destruct e; cbn; unfold_handlers; cbn; case_matches;
    reflexivity.
Qed.

(** X8. When the map is not mounted the zoom buttons do nothing at all.
    When the map is mounted but reading its camera fails, each of them
    only logs the error: no animation is requested and the map and the
    state cells stay as they are. *)
Theorem zoom_without_camera (w : World) :
  (mapRef w = None -> zoomIn w = w /\ zoomOut w = w) /\
  (forall m error,
     mapRef w = Some m -> getCamera m = JS.Rejected error ->
     issued w (zoomIn w) = [GetCamera; ConsoleError "Zoom in error:" error] /\
     issued w (zoomOut w) = [GetCamera; ConsoleError "Zoom out error:" error] /\
     mapRef (zoomIn w) = mapRef w /\ mapRef (zoomOut w) = mapRef w /\
     state (zoomIn w) = state w /\ state (zoomOut w) = state w).
Proof.
  unfold zoomIn, zoomOut. split.
  - intros ->. split; reflexivity.
  - intros m error Hm Hc. rewrite Hm, Hc.
    repeat split; try exact Hm;
      apply issued_app; cbn; rewrite <- app_assoc; reflexivity.
Qed.

(** X9. In every state the screen can reach, the re-centre button asks
    the map to animate, over 1000 ms, to the very region held in the
    [region] cell whenever a location is stored, and changes no state
    cell; with no location stored it does nothing. *)
Theorem centerOnUser_animates_to_region
  (toFixed : JS.number -> nat -> string)
  (camera : JS.Settled Camera Error) (events : list Event) :
  let w := run toFixed (mounted camera) events in
  match location (state w) with
  | Some l =>
      issued w (centerOnUser w) = [AnimateToRegion (region (state w)) 1000] /\
      latitude (region (state w)) = coords_latitude (coords l) /\
      longitude (region (state w)) = coords_longitude (coords l) /\
      state (centerOnUser w) = state w
  | None => centerOnUser w = w
  end.
Proof.
  intros w. destruct (reached toFixed camera events) as (Hc & Ht).
  fold w in Hc, Ht. clearbody w.
  destruct Hc as ([m Hm] & _). destruct Ht as (Hr & _).
  unfold centerOnUser, animateToRegion.
  destruct (location (state w)) as [l | ]; [ | reflexivity ].
  rewrite Hm, Hr. repeat split. apply issued_app. reflexivity.
Qed.

(** X14. The zoom buttons, the re-centre button, the Details button,
    the alert's Settings button and the user's own gestures on the map
    never change any of the seven state cells and never call the
    position service or settle one of its requests.  Of the six only
    the Settings button calls expo-location at all: once the
    "Permission Required" alert has been raised, a press on it starts
    one more permission request, whose answer nothing waits for. *)
Theorem map_controls_keep_state
  (toFixed : JS.number -> nat -> string) (w : World) (e : Event) :
  let w' := step toFixed w e in
  match e with
  | PressZoomIn | PressZoomOut | PressCenterOnUser | PressDetails
  | MapMoved _ =>
      state w' = state w /\
      positionPending w' = positionPending w /\
      existsb isPositionCall (issued w w') = false /\
      ~ In RequestForegroundPermissionsAsync (issued w w')
  | PressAlertSettings =>
      state w' = state w /\
      positionPending w' = positionPending w /\
      issued w w' =
        if existsb isPermissionAlert (effects w)
        then [RequestForegroundPermissionsAsync] else []
  | _ => True
  end.
Proof.
  destruct w as [s mref pp qp eff]. unfold issued.
  destruct e; try exact I; cbn; unfold_handlers; cbn; case_matches;
    rewrite <- ?app_assoc, ?skipn_length_app, ?skipn_all;
    repeat split; cbn; intuition discriminate.
Qed.

(** ** The text of the details alert *)

(** X11. In the details alert an altitude, a speed or a heading that is
    0 (or [NaN]) is left out exactly like a missing one, and a missing
    accuracy is printed as N/A: with none of the three present the text
    is the two coordinates followed by the accuracy line alone. *)
Theorem detailsMessage_without_optional_fields
  (toFixed : JS.number -> nat -> string) (c : LocationObjectCoords) :
  JS.truthy_opt (coords_altitude c) = false ->
  JS.truthy_opt (coords_speed c) = false ->
  JS.truthy_opt (coords_heading c) = false ->
  detailsMessage toFixed c =
    "**Coordinates:**" ++ JS.nl ++
    "Latitude: " ++ toFixed (coords_latitude c) 6 ++ JS.nl ++
    "Longitude: " ++ toFixed (coords_longitude c) 6 ++ JS.nl ++ JS.nl ++
    "**Information:**" ++ JS.nl ++
    "Accuracy: ±" ++
    match coords_accuracy c with
    | Some a => match toFixed a 2 with "" => "N/A" | shown => shown end
    | None => "N/A"
    end ++ " m" ++ JS.nl.
Proof.
  unfold detailsMessage, JS.truthy_opt. intros Ha Hs Hh.
  destruct (coords_altitude c) as [a | ]; [ rewrite Ha | ];
    destruct (coords_speed c) as [s | ]; [ rewrite Hs | | rewrite Hs | ];
    destruct (coords_heading c) as [h | ]; try rewrite Hh;
    destruct (coords_accuracy c) as [acc | ]; cbn [option_map JS.str_or_else];
    try destruct (toFixed acc 2); reflexivity.
Qed.

Lemma detailsMessage_without_optional_fields_witness :
  detailsMessage dashFixed seaLevelCoords =
    "**Coordinates:**" ++ JS.nl ++ "Latitude: -" ++ JS.nl ++
    "Longitude: -" ++ JS.nl ++ JS.nl ++ "**Information:**" ++ JS.nl ++
    "Accuracy: ±N/A m" ++ JS.nl.
Proof.
  exact (detailsMessage_without_optional_fields dashFixed seaLevelCoords
           eq_refl eq_refl eq_refl).
Defined.

(** ** Before the permission is answered *)

(** X16. Until the permission request made on mount has settled, the
    main button and every control that needs a stored location (Details,
    Reset, re-centre, the user's marker, the panel's close button) do
    nothing: only the zoom and map-type buttons respond. *)
Theorem nothing_before_permission
  (toFixed : JS.number -> nat -> string)
  (camera : JS.Settled Camera Error) (events : list Event) :
  let w := run toFixed (mounted camera) events in
  permissionPending w = 1 ->
  Forall (fun e => step toFixed w e = w)
    [ PressMainButton; PressDetails; PressReset; PressCenterOnUser;
      PressUserMarker; PressCloseDetails ].
Proof.
  intros w Hp. destruct (reached toFixed camera events) as (Hc & Ht).
  fold w in Hc, Ht. clearbody w.
  destruct Hc as (_ & _ & Hld & _).
  destruct Ht as (_ & _ & _ & _ & Hg & _).
  assert (Hl : loading (state w) = true) by (apply Hld; lia).
  assert (Hn : location (state w) = None).
  { destruct (location (state w)) eqn:E; [ | reflexivity ].
    destruct Hg as (_ & Hg); [ left; discriminate | lia ]. }
  repeat constructor; cbn [step]; rewrite ?Hl, ?Hn; reflexivity.
Qed.

Lemma nothing_before_permission_witness :
  let w := run dashFixed (mounted (JS.Fulfilled cityCamera)) [PressZoomIn] in
  permissionPending w = 1 /\ step dashFixed w PressMainButton = w.
Proof.
  split; [ reflexivity | ].
  exact (Forall_inv
           (nothing_before_permission dashFixed (JS.Fulfilled cityCamera)
              [PressZoomIn] eq_refl)).
Defined.
